(** * Shallow embedding of internal/pkg/provider/proxmox_helpers.go

    The three helpers of the Proxmox provisioner are embedded as Rocq
    functions over the values that [encoding/json] produces when it decodes
    into [any], [map[string]any] and [[]map[string]any].  The HTTP client,
    [json.Unmarshal] and the [%v] verb of [fmt] are library code: they are
    taken as parameters, so every theorem holds for each of their
    behaviours. *)

From Stdlib Require Import PrimFloat.
From stdpp Require Import base option strings list gmap.

Set Warnings "-register-all".

(** ** Go values *)

Module Go.

(** What [json.Unmarshal] stores in an [any]: [nil] for JSON null, [bool],
    [float64] for every number, [string], [[]any] and [map[string]any]. *)
Inductive any : Type :=
| Nil
| Bool (b : bool)
| Float64 (f : float)
| Str (s : string)
| Slice (l : list any)
| Map (m : gmap string any).

(** [error] values: a message ([Error()]) and the wrapped cause
    ([Unwrap()]), which only [%w] sets. *)
Inductive error : Type :=
| mkError (msg : string) (cause : option error).

Definition Error (e : error) : string :=
  match e with mkError msg _ => msg end.

Definition Unwrap (e : error) : option error :=
  match e with mkError _ cause => cause end.

(** A Go [(T, error)] result; the [T] component of a failed call is the zero
    value and is never read by callers, so it is not kept. *)
Inductive result (T : Type) : Type :=
| Ok (v : T)
| Err (e : error).
Arguments Ok {T} v.
Arguments Err {T} e.

End Go.

(** ** The pieces of the Go standard library that the helpers call *)

Module strings.

(** [strings.HasSuffix]:
    [len(s) >= len(suffix) && s[len(s)-len(suffix):] == suffix]. *)
Definition HasSuffix (s suffix : string) : bool :=
  (String.length suffix <=? String.length s) &&
  String.eqb
    (String.substring (String.length s - String.length suffix)
                      (String.length suffix) s)
    suffix.

End strings.

Module fmt.
Import Go.

(** [fmt.Errorf(prefix + "%s", arg)]: a plain error, nothing wrapped. *)
Definition Errorf_s (prefix arg : string) : error :=
  mkError (prefix +:+ arg) None.

(** [fmt.Errorf(prefix + "%w", err)]: the message ends in [err.Error()] and
    [Unwrap()] gives [err] back. *)
Definition Errorf_w (prefix : string) (err : error) : error :=
  mkError (prefix +:+ Error err) (Some err).

End fmt.

(** ** package provider *)

Module provider.
Import Go.

(** [json.RawMessage] is a [[]byte]. *)
Definition RawMessage : Type := list Byte.byte.

(** [m[k]] on a [map[string]any]: the zero value [nil] for a missing key
    (and for every key of a nil map, which [∅] stands for as well). *)
Definition index (m : gmap string any) (k : string) : any :=
  default Nil (m !! k).

(** [x.(string)] in its comma-ok form. *)
Definition assert_string (x : any) : option string :=
  match x with Str s => Some s | _ => None end.

(** [x.([]any)] in its comma-ok form. *)
Definition assert_slice (x : any) : option (list any) :=
  match x with Slice l => Some l | _ => None end.

(** The go-proxmox client as the helpers use it: [Get] and [Post] fill a
    [json.RawMessage] or fail.  The [context.Context] is only passed along. *)
Record Client : Type := {
  Get : string -> result RawMessage;
  Post : string -> gmap string string -> result RawMessage
}.

Record Provisioner : Type := { proxmoxClient : Client }.

Section Helpers.

(** [json.Unmarshal] into a [[]map[string]any] and into a [map[string]any]. *)
Variable Unmarshal_items : RawMessage -> result (list (gmap string any)).
Variable Unmarshal_map : RawMessage -> result (gmap string any).

(** The [%v] verb of [fmt] on a [map[string]any]. *)
Variable Sprint_v : gmap string any -> string.

Variable p : Provisioner.

(** *** findISOStorageName *)

(** Lines 30-35: the name is under "storage" or "name". *)
Definition storage_name (item : gmap string any) : string :=
  match assert_string (index item "storage") with
  | Some s => s
  | None =>
      match assert_string (index item "name") with
      | Some s => s
      | None => ""
      end
  end.

(** Lines 43-47: the inner [range content]; [true] stands for reaching
    [return name, nil]. *)
Fixpoint range_content (content : list any) : bool :=
  match content with
  | [] => false
  | c :: rest =>
      if match assert_string c with
         | Some cs => String.eqb cs "iso"
         | None => false
         end
      then true
      else range_content rest
  end.

(** Lines 42-48. *)
Definition content_has_iso (item : gmap string any) : bool :=
  match assert_slice (index item "content") with
  | Some content => range_content content
  | None => false
  end.

(** Lines 28-49: the [range items] loop; [Some name] is the early return,
    [None] is falling out of the loop. *)
Fixpoint range_items (items : list (gmap string any)) : option string :=
  match items with
  | [] => None
  | item :: rest =>
      let name := storage_name item in
      if String.eqb name "" then range_items rest
      else if content_has_iso item then Some name
      else range_items rest
  end.

Definition findISOStorageName (node : string) : result string :=
  match Get (proxmoxClient p) ("/nodes/" +:+ node +:+ "/storage") with
  | Err err => Err err
  | Ok raw =>
      match Unmarshal_items raw with
      | Err err => Err (fmt.Errorf_w "failed to parse storage list: " err)
      | Ok items =>
          match range_items items with
          | Some name => Ok name
          | None =>
              Err (fmt.Errorf_s "no ISO-capable storage found on node " node)
          end
      end
  end.

(** *** storageHasISO *)

(** Lines 69-73. *)
Definition volid_matches (it : gmap string any) (isoName : string) : bool :=
  match assert_string (index it "volid") with
  | Some v => strings.HasSuffix v isoName || String.eqb v isoName
  | None => false
  end.

(** Lines 74-78. *)
Definition name_matches (it : gmap string any) (isoName : string) : bool :=
  match assert_string (index it "name") with
  | Some n => String.eqb n isoName
  | None => false
  end.

(** Lines 67-81: [true] as soon as a record matches, [false] after the
    loop. *)
Fixpoint range_contents (items : list (gmap string any)) (isoName : string)
  : bool :=
  match items with
  | [] => false
  | it :: rest =>
      if volid_matches it isoName then true
      else if name_matches it isoName then true
      else range_contents rest isoName
  end.

Definition storageHasISO (node storage isoName : string) : result bool :=
  match Get (proxmoxClient p)
            ("/nodes/" +:+ node +:+ "/storage/" +:+ storage +:+ "/content") with
  | Err err => Err err
  | Ok raw =>
      match Unmarshal_items raw with
      | Err err => Err (fmt.Errorf_w "failed to parse storage content: " err)
      | Ok items => Ok (range_contents items isoName)
      end
  end.

(** *** startStorageDownload *)

(** Lines 87-91. *)
Definition download_params (isoName sourceURL : string) : gmap string string :=
  <["content" := "iso"]> (<["filename" := isoName]> (<["url" := sourceURL]> ∅)).

(** Lines 107-116: [wrapper["data"]] in its comma-ok form, then the type
    switch on it; [None] is reaching the final [return] of line 118. *)
Definition extract_upid (wrapper : gmap string any) : option string :=
  match wrapper !! "data" with
  | Some d =>
      match d with
      | Str v => Some v
      | Map v => assert_string (index v "upid")
      | _ => None
      end
  | None => None
  end.

Definition startStorageDownload (node storage isoName sourceURL : string)
  : result string :=
  match Post (proxmoxClient p)
             ("/nodes/" +:+ node +:+ "/storage/" +:+ storage +:+ "/download")
             (download_params isoName sourceURL) with
  | Err err => Err err
  | Ok resp =>
      match Unmarshal_map resp with
      | Err err => Err (fmt.Errorf_w "failed to parse download response: " err)
      | Ok wrapper =>
          match extract_upid wrapper with
          | Some upid => Ok upid
          | None =>
              Err (mkError ("unexpected download response: "
                            +:+ Sprint_v wrapper) None)
          end
      end
  end.

End Helpers.

End provider.

(** ** Concrete clients, decoders and payloads

    Instances of the parameters, used to run the helpers on explicit
    responses. *)

Module Fixtures.
Import Go provider.

(** A client whose every call succeeds with the body [body]. *)
Definition serving (body : RawMessage) : Provisioner :=
  {| proxmoxClient :=
       {| Get := fun _ => Ok body; Post := fun _ _ => Ok body |} |}.

(** A decoder that yields [v] for every body. *)
Definition decoding_to {T : Type} (v : T) : RawMessage -> result T :=
  fun _ => Ok v.

(** A decoder that rejects every body with [cause]. *)
Definition rejecting {T : Type} (cause : error) : RawMessage -> result T :=
  fun _ => Err cause.

Definition syntax_error : error :=
  mkError "invalid character '<' looking for beginning of value" None.

(** A stand-in for [%v]; the helpers only splice its output in a message. *)
Definition show_keys (m : gmap string any) : string :=
  "map[" +:+ String.concat " " (fst <$> map_to_list m) +:+ "]".

(** [{"content": ["iso"]}] *)
Definition unnamed_iso : gmap string any :=
  {[ "content" := Slice [Str "iso"] ]}.

(** [{"storage": "local", "content": ["iso", "vztmpl"]}] *)
Definition local_iso : gmap string any :=
  <["storage" := Str "local"]> {[ "content" := Slice [Str "iso"; Str "vztmpl"] ]}.

(** [{"storage": "local-lvm", "content": ["images", "rootdir"]}] *)
Definition lvm_images : gmap string any :=
  <["storage" := Str "local-lvm"]>
    {[ "content" := Slice [Str "images"; Str "rootdir"] ]}.

(** [{"name": "nfs", "content": [1, null, "iso"]}] *)
Definition nfs_mixed : gmap string any :=
  <["name" := Str "nfs"]>
    {[ "content" := Slice [Float64 1%float; Nil; Str "iso"] ]}.

(** [{"storage": "", "name": "backup", "content": ["iso"]}] *)
Definition empty_storage_named : gmap string any :=
  <["storage" := Str ""]>
    (<["name" := Str "backup"]> {[ "content" := Slice [Str "iso"] ]}).

(** [{"volid": "local:iso/ubuntu.iso"}] *)
Definition ubuntu_volume : gmap string any :=
  {[ "volid" := Str "local:iso/ubuntu.iso" ]}.

(** [{"volid": "local:iso/debian.iso", "name": "debian.iso"}] *)
Definition debian_volume : gmap string any :=
  <["volid" := Str "local:iso/debian.iso"]> {[ "name" := Str "debian.iso" ]}.

(** [{"data": "UPID:pve:0001:"}] *)
Definition upid_plain : gmap string any :=
  {[ "data" := Str "UPID:pve:0001:" ]}.

(** [{"data": {"upid": "UPID:pve:0002:"}}] *)
Definition upid_nested : gmap string any :=
  {[ "data" := Map {[ "upid" := Str "UPID:pve:0002:" ]} ]}.

(** [{"data": [1]}] *)
Definition data_array : gmap string any :=
  {[ "data" := Slice [Float64 1%float] ]}.

(** A decoder that yields [v] for the empty body and [w] for any other. *)
Definition decoding_either {T : Type} (v w : T) : RawMessage -> result T :=
  fun raw => match raw with [] => Ok v | _ :: _ => Ok w end.

(** [{"storage": "local", "content": ["iso", "vztmpl"], "type": "dir"}] *)
Definition local_iso_typed : gmap string any :=
  <["type" := Str "dir"]> local_iso.

(** [{"volid": "local:iso/ubuntu.iso", "format": "iso", "size": 1}] *)
Definition ubuntu_volume_sized : gmap string any :=
  <["format" := Str "iso"]> (<["size" := Float64 1%float]> ubuntu_volume).

(** [{"data": "UPID:pve:0001:", "success": 1}] *)
Definition upid_plain_verbose : gmap string any :=
  <["success" := Float64 1%float]> upid_plain.

(** [{"content": [1, "iso"]}] *)
Definition unnamed_mixed : gmap string any :=
  {[ "content" := Slice [Float64 1%float; Str "iso"] ]}.

End Fixtures.

(** ** Strings *)

Section StringFacts.

Lemma append_cons (c : Ascii.ascii) (s t : string) :
  String c s +:+ t = String c (s +:+ t).
Proof. reflexivity. Qed.

Lemma append_empty_r (s : string) : s +:+ "" = s.
Proof.
  induction s as [|c s IH]; [reflexivity|]. rewrite append_cons. by f_equal.
Qed.

Lemma substring_whole (s : string) :
  String.substring 0 (String.length s) s = s.
Proof.
  induction s as [|c s IH]; simpl; [reflexivity|]. by rewrite IH.
Qed.

Lemma substring_zero_length (n : nat) (s : string) :
  n <= String.length s -> String.substring n 0 s = "".
Proof.
  revert n. induction s as [|c s IH]; intros [|n] Hn; simpl in *;
    try reflexivity; try lia.
  apply IH. lia.
Qed.

Lemma length_append (s t : string) :
  String.length (s +:+ t) = String.length s + String.length t.
Proof.
  induction s as [|c s IH]; simpl; [reflexivity|]. by rewrite IH.
Qed.

Lemma substring_after_prefix (pre s : string) :
  String.substring (String.length pre) (String.length s) (pre +:+ s) = s.
Proof.
  induction pre as [|c pre IH]; simpl.
  - apply substring_whole.
  - exact IH.
Qed.

Lemma substring_split (s : string) (n : nat) :
  n <= String.length s ->
  s = String.substring 0 n s +:+ String.substring n (String.length s - n) s.
Proof.
  revert n. induction s as [|c s IH]; intros n Hn.
  - destruct n; reflexivity.
  - destruct n as [|n]; simpl in *.
    + by rewrite substring_whole.
    + rewrite append_cons. f_equal. apply IH. lia.
Qed.

(** [strings.HasSuffix] decides the suffix relation. *)
Lemma HasSuffix_spec (s suffix : string) :
  strings.HasSuffix s suffix = true <-> exists pre, s = pre +:+ suffix.
Proof.
  unfold strings.HasSuffix. rewrite andb_true_iff, Nat.leb_le, String.eqb_eq.
  split.
  - intros [Hle Hsub].
    exists (String.substring 0 (String.length s - String.length suffix) s).
    pose proof (substring_split s (String.length s - String.length suffix))
      as Hsplit.
    replace (String.length s - (String.length s - String.length suffix))
      with (String.length suffix) in Hsplit by lia.
    rewrite Hsub in Hsplit. apply Hsplit. lia.
  - intros [pre ->]. rewrite length_append. split; [lia|].
    replace (String.length pre + String.length suffix - String.length suffix)
      with (String.length pre) by lia.
    apply substring_after_prefix.
Qed.

Lemma HasSuffix_false (s suffix : string) :
  strings.HasSuffix s suffix = false -> ~ exists pre, s = pre +:+ suffix.
Proof. intros Hf Hex%HasSuffix_spec. congruence. Qed.

Lemma HasSuffix_empty (s : string) : strings.HasSuffix s "" = true.
Proof. apply HasSuffix_spec. exists s. symmetry. apply append_empty_r. Qed.

Lemma HasSuffix_refl (s : string) : strings.HasSuffix s s = true.
Proof. apply HasSuffix_spec. by exists "". Qed.

End StringFacts.

(** ** Lookups and type assertions *)

Section Assertions.
Import Go provider.

Lemma assert_string_Some (x : any) (s : string) :
  assert_string x = Some s <-> x = Str s.
Proof. destruct x; simpl; split; congruence. Qed.

Lemma assert_slice_Some (x : any) (l : list any) :
  assert_slice x = Some l <-> x = Slice l.
Proof. destruct x; simpl; split; congruence. Qed.

Lemma index_Some (m : gmap string any) (k : string) (x : any) :
  m !! k = Some x -> index m k = x.
Proof. unfold index. by intros ->. Qed.

Lemma index_None (m : gmap string any) (k : string) :
  m !! k = None -> index m k = Nil.
Proof. unfold index. by intros ->. Qed.

(** A field read through [index] and [.(string)] is [Some s] exactly when the
    key is present with the string [s]. *)
Lemma field_string (m : gmap string any) (k s : string) :
  assert_string (index m k) = Some s <-> m !! k = Some (Str s).
Proof.
  rewrite assert_string_Some. unfold index.
  destruct (m !! k) as [x|]; simpl; split; congruence.
Qed.

Lemma field_not_string (m : gmap string any) (k : string) :
  assert_string (index m k) = None <-> forall s, m !! k <> Some (Str s).
Proof.
  split.
  - intros Hnone s Hs. apply field_string in Hs. congruence.
  - intros Hno. destruct (assert_string (index m k)) as [s|] eqn:E; [|done].
    apply field_string in E. by destruct (Hno s).
Qed.

Lemma field_slice (m : gmap string any) (k : string) (l : list any) :
  assert_slice (index m k) = Some l <-> m !! k = Some (Slice l).
Proof.
  rewrite assert_slice_Some. unfold index.
  destruct (m !! k) as [x|]; simpl; split; congruence.
Qed.

End Assertions.

(** ** findISOStorageName *)

Section FindISOStorageName.
Import Go provider.

Variable Unmarshal_items : RawMessage -> result (list (gmap string any)).
Variable p : Provisioner.

(** The request path of the storage listing. *)
Local Abbreviation storage_path node := ("/nodes/" +:+ node +:+ "/storage").

(** A record the loop passes over: no name, or no "iso" in its content. *)
Local Abbreviation passed_over :=
  (fun item : gmap string any =>
     storage_name item = "" \/ content_has_iso item = false).

Lemma range_content_spec (content : list any) :
  range_content content = true <-> Str "iso" ∈ content.
Proof.
  induction content as [|c content IH]; simpl.
  - split; [discriminate|]. by intros ?%elem_of_nil.
  - rewrite elem_of_cons, <- IH. clear IH.
    destruct c as [ |b|f|s|l|m]; simpl;
      try (split; [by right | by intros [?|?]]).
    destruct (String.eqb_spec s "iso") as [->|Hne].
    + split; [by left | done].
    + split; [by right | intros [?|?]; [congruence | done]].
Qed.

Lemma range_content_skips (c : any) (content : list any) :
  assert_string c = None -> range_content (c :: content) = range_content content.
Proof. simpl. by intros ->. Qed.

Lemma content_has_iso_spec (item : gmap string any) :
  content_has_iso item = true <->
  exists elems, item !! "content" = Some (Slice elems) /\ Str "iso" ∈ elems.
Proof.
  unfold content_has_iso.
  destruct (assert_slice (index item "content")) as [l|] eqn:E.
  - apply field_slice in E. rewrite range_content_spec. split.
    + intros Hin. by exists l.
    + intros (elems & Hc & Hin). congruence.
  - split; [discriminate|]. intros (elems & Hc & _).
    apply field_slice in Hc. congruence.
Qed.

Lemma range_items_step (item : gmap string any) rest :
  range_items (item :: rest) =
  if negb (String.eqb (storage_name item) "") && content_has_iso item
  then Some (storage_name item)
  else range_items rest.
Proof.
  simpl. destruct (String.eqb (storage_name item) ""); simpl; [done|].
  by destruct (content_has_iso item).
Qed.

Lemma range_items_pass (item : gmap string any) rest :
  passed_over item -> range_items (item :: rest) = range_items rest.
Proof.
  rewrite range_items_step. intros [Hname|Hiso].
  - by rewrite Hname.
  - rewrite Hiso. by rewrite andb_false_r.
Qed.

Lemma range_items_hit (item : gmap string any) rest :
  storage_name item <> "" -> content_has_iso item = true ->
  range_items (item :: rest) = Some (storage_name item).
Proof.
  rewrite range_items_step. intros Hname%String.eqb_neq ->. by rewrite Hname.
Qed.

Lemma range_items_prefix pre rest :
  Forall passed_over pre -> range_items (pre ++ rest) = range_items rest.
Proof.
  induction 1 as [|item pre Hitem _ IH]; [done|].
  rewrite <- app_comm_cons, range_items_pass; done.
Qed.

Lemma range_items_None items :
  range_items items = None <-> Forall passed_over items.
Proof.
  induction items as [|item items IH].
  - split; [constructor | done].
  - rewrite Forall_cons, <- IH, range_items_step.
    destruct (String.eqb_spec (storage_name item) "") as [Hname|Hname]; simpl.
    + split; [intros ?; split; [by left | done] | by intros [_ ?]].
    + destruct (content_has_iso item) eqn:Hiso.
      * split; [discriminate | intros [[?|?] _]; congruence].
      * split; [intros ?; split; [by right | done] | by intros [_ ?]].
Qed.

(** The same condition read off the record's fields. *)
Lemma passed_over_fields (item : gmap string any) :
  storage_name item = "" \/
  ~ (exists elems, item !! "content" = Some (Slice elems) /\ Str "iso" ∈ elems) ->
  passed_over item.
Proof.
  intros [?|Hno]; [by left|right].
  destruct (content_has_iso item) eqn:E; [|done].
  by apply content_has_iso_spec in E.
Qed.

(** Whatever the listing, the loop ends with a name or falls through. *)
Lemma findISOStorageName_decoded node raw items :
  Get (proxmoxClient p) (storage_path node) = Ok raw ->
  Unmarshal_items raw = Ok items ->
  findISOStorageName Unmarshal_items p node =
  match range_items items with
  | Some name => Ok name
  | None => Err (fmt.Errorf_s "no ISO-capable storage found on node " node)
  end.
Proof. unfold findISOStorageName. by intros -> ->. Qed.

(** C1 (as amended): when the decoded listing is [pre ++ it :: post], every
    record of [pre] is passed over (it has an empty candidate name or no
    "iso" in its content), and [it] has a non-empty candidate name and a
    content array containing "iso", then findISOStorageName returns the
    candidate name of [it], whatever qualifying records follow in [post]. *)
Theorem findISOStorageName_first_named_iso node raw pre it post :
  Get (proxmoxClient p) (storage_path node) = Ok raw ->
  Unmarshal_items raw = Ok (pre ++ it :: post) ->
  Forall (fun item =>
            storage_name item = "" \/
            ~ exists elems,
                item !! "content" = Some (Slice elems) /\ Str "iso" ∈ elems)
         pre ->
  storage_name it <> "" ->
  (exists elems, it !! "content" = Some (Slice elems) /\ Str "iso" ∈ elems) ->
  findISOStorageName Unmarshal_items p node = Ok (storage_name it).
Proof.
  intros Hget Hdec Hpre Hname Hiso%content_has_iso_spec.
  rewrite (findISOStorageName_decoded _ _ _ Hget Hdec).
  rewrite range_items_prefix.
  - by rewrite range_items_hit.
  - eapply Forall_impl; [exact Hpre|]. apply passed_over_fields.
Qed.

(** C4 (as amended): the candidate name is the value of the storage field
    whenever that field is string-typed, even when it is the empty string;
    only when storage is absent or not a string is it the value of a
    string-typed name field, and it is empty when neither is a string.  The
    record is skipped at the name test exactly when the candidate is empty;
    otherwise it goes on to the content scan. *)
Theorem storage_name_prefers_string_storage (item : gmap string any) rest :
  (forall s, item !! "storage" = Some (Str s) -> storage_name item = s) /\
  ((forall s, item !! "storage" <> Some (Str s)) ->
   forall s, item !! "name" = Some (Str s) -> storage_name item = s) /\
  ((forall s, item !! "storage" <> Some (Str s)) ->
   (forall s, item !! "name" <> Some (Str s)) -> storage_name item = "") /\
  (storage_name item = "" -> range_items (item :: rest) = range_items rest) /\
  (storage_name item <> "" ->
   range_items (item :: rest) =
   if content_has_iso item then Some (storage_name item)
   else range_items rest).
Proof.
  repeat split.
  - intros s Hs%field_string. unfold storage_name. by rewrite Hs.
  - intros Hno%field_not_string s Hs%field_string. unfold storage_name.
    by rewrite Hno, Hs.
  - intros Hno%field_not_string Hno'%field_not_string. unfold storage_name.
    by rewrite Hno, Hno'.
  - intros Hempty. apply range_items_pass. by left.
  - intros Hname%String.eqb_neq. rewrite range_items_step. by rewrite Hname.
Qed.

(** C6: when the decoded listing is empty, or every record of it has an
    empty candidate name or no "iso" in its content array, then
    findISOStorageName fails with the error "no ISO-capable storage found on
    node <node>", which wraps nothing. *)
Theorem findISOStorageName_not_found node raw items :
  Get (proxmoxClient p) (storage_path node) = Ok raw ->
  Unmarshal_items raw = Ok items ->
  items = [] \/
  Forall (fun item =>
            storage_name item = "" \/
            ~ exists elems,
                item !! "content" = Some (Slice elems) /\ Str "iso" ∈ elems)
         items ->
  exists e,
    findISOStorageName Unmarshal_items p node = Err e /\
    Error e = "no ISO-capable storage found on node " +:+ node /\
    Unwrap e = None.
Proof.
  intros Hget Hdec Hnone.
  rewrite (findISOStorageName_decoded _ _ _ Hget Hdec).
  assert (range_items items = None) as ->.
  { apply range_items_None. destruct Hnone as [->|Hall]; [constructor|].
    eapply Forall_impl; [exact Hall|]. apply passed_over_fields. }
  by eexists.
Qed.

End FindISOStorageName.

Section FindISOStorageNameRuns.
Import Go provider Fixtures.

Lemma lvm_images_without_iso :
  ~ exists elems,
      lvm_images !! "content" = Some (Slice elems) /\ Str "iso" ∈ elems.
Proof.
  intros (elems & Hc & Hin). vm_compute in Hc. injection Hc as <-.
  apply elem_of_cons in Hin as [Hin|Hin]; [discriminate|].
  apply elem_of_cons in Hin as [Hin|Hin]; [discriminate|].
  by apply elem_of_nil in Hin.
Defined.

Lemma findISOStorageName_first_named_iso_run :
  findISOStorageName
    (decoding_to [unnamed_iso; lvm_images; local_iso; nfs_mixed])
    (serving []) "pve" = Ok "local".
Proof.
  apply (findISOStorageName_first_named_iso
           (decoding_to [unnamed_iso; lvm_images; local_iso; nfs_mixed])
           (serving []) "pve" [] [unnamed_iso; lvm_images] local_iso
           [nfs_mixed]).
  - reflexivity.
  - reflexivity.
  - constructor; [left; vm_compute; reflexivity|].
    constructor; [right; apply lvm_images_without_iso | constructor].
  - vm_compute. discriminate.
  - exists [Str "iso"; Str "vztmpl"]. split; [vm_compute; reflexivity|].
    apply elem_of_cons. by left.
Defined.

(** C1, as stated, fails: the first record whose content contains "iso" has
    neither a storage nor a name field, so the loop passes over it and
    returns the name of the later record. *)
Lemma findISOStorageName_skips_unnamed_iso :
  unnamed_iso !! "content" = Some (Slice [Str "iso"]) /\
  unnamed_iso !! "storage" = None /\
  unnamed_iso !! "name" = None /\
  local_iso !! "storage" = Some (Str "local") /\
  findISOStorageName (decoding_to [unnamed_iso; local_iso]) (serving []) "pve"
    = Ok "local" /\
  findISOStorageName (decoding_to [unnamed_iso; local_iso]) (serving []) "pve"
    <> Ok (storage_name unnamed_iso).
Proof. repeat split; vm_compute; (reflexivity || discriminate). Qed.

(** C4, as stated, fails: with an empty string under "storage" the name
    field is not consulted, and the record is skipped. *)
Lemma storage_name_empty_storage_hides_name :
  empty_storage_named !! "storage" = Some (Str "") /\
  empty_storage_named !! "name" = Some (Str "backup") /\
  storage_name empty_storage_named = "" /\
  findISOStorageName (decoding_to [empty_storage_named]) (serving []) "pve"
    = Err (fmt.Errorf_s "no ISO-capable storage found on node " "pve").
Proof. repeat split; vm_compute; reflexivity. Qed.

Lemma findISOStorageName_not_found_run :
  exists e,
    findISOStorageName (decoding_to [unnamed_iso; lvm_images]) (serving []) "pve"
      = Err e /\
    Error e = "no ISO-capable storage found on node pve" /\
    Unwrap e = None.
Proof.
  apply (findISOStorageName_not_found
           (decoding_to [unnamed_iso; lvm_images]) (serving []) "pve" []
           [unnamed_iso; lvm_images]).
  - reflexivity.
  - reflexivity.
  - right. constructor; [left; vm_compute; reflexivity|].
    constructor; [right; apply lvm_images_without_iso | constructor].
Defined.

Lemma storage_name_prefers_string_storage_run :
  storage_name local_iso = "local" /\
  storage_name nfs_mixed = "nfs".
Proof.
  split.
  - apply (proj1 (storage_name_prefers_string_storage local_iso [])).
    vm_compute. reflexivity.
  - apply (proj1 (proj2 (storage_name_prefers_string_storage nfs_mixed []))).
    + intros s Hs. vm_compute in Hs. discriminate.
    + vm_compute. reflexivity.
Defined.

End FindISOStorageNameRuns.

(** ** storageHasISO *)

Section StorageHasISO.
Import Go provider.

Variable Unmarshal_items : RawMessage -> result (list (gmap string any)).
Variable p : Provisioner.

Local Abbreviation content_path node storage :=
  ("/nodes/" +:+ node +:+ "/storage/" +:+ storage +:+ "/content").

Lemma volid_matches_spec (it : gmap string any) (isoName : string) :
  volid_matches it isoName = true <->
  exists v, it !! "volid" = Some (Str v) /\
            (v = isoName \/ exists pre, v = pre +:+ isoName).
Proof.
  unfold volid_matches.
  destruct (assert_string (index it "volid")) as [v|] eqn:E.
  - apply field_string in E.
    rewrite orb_true_iff, HasSuffix_spec, String.eqb_eq. split.
    + intros H. exists v. tauto.
    + intros (v' & Hv' & H). assert (v' = v) as -> by congruence. tauto.
  - split; [discriminate|]. intros (v & Hv%field_string & _). congruence.
Qed.

Lemma name_matches_spec (it : gmap string any) (isoName : string) :
  name_matches it isoName = true <-> it !! "name" = Some (Str isoName).
Proof.
  unfold name_matches.
  destruct (assert_string (index it "name")) as [n|] eqn:E.
  - apply field_string in E. rewrite String.eqb_eq, E.
    split; congruence.
  - split; [discriminate|]. intros Hn%field_string. congruence.
Qed.

Lemma range_contents_step (it : gmap string any) rest isoName :
  range_contents (it :: rest) isoName =
  volid_matches it isoName || name_matches it isoName
  || range_contents rest isoName.
Proof.
  simpl. destruct (volid_matches it isoName); [done|].
  by destruct (name_matches it isoName).
Qed.

Lemma range_contents_true items isoName :
  range_contents items isoName = true <->
  Exists (fun it => volid_matches it isoName = true \/
                    name_matches it isoName = true) items.
Proof.
  induction items as [|it items IH].
  - split; [discriminate | by intros ?%Exists_nil].
  - rewrite range_contents_step, Exists_cons, !orb_true_iff, IH. tauto.
Qed.

Lemma range_contents_false items isoName :
  range_contents items isoName = false <->
  Forall (fun it => volid_matches it isoName = false /\
                    name_matches it isoName = false) items.
Proof.
  induction items as [|it items IH].
  - split; [constructor | done].
  - rewrite range_contents_step, Forall_cons, !orb_false_iff, IH. tauto.
Qed.

Lemma storageHasISO_decoded node storage isoName raw items :
  Get (proxmoxClient p) (content_path node storage) = Ok raw ->
  Unmarshal_items raw = Ok items ->
  storageHasISO Unmarshal_items p node storage isoName =
  Ok (range_contents items isoName).
Proof. unfold storageHasISO. by intros -> ->. Qed.

(** C2: on a decoded content listing, storageHasISO returns true if and
    only if some record has a string volid that equals the file name or
    ends with it, or a string name equal to the file name; and at each
    record the loop tests the volid rule first, then the name rule, and
    returns true at the first that holds without looking at the rest. *)
Theorem storageHasISO_true_iff node storage isoName raw items :
  Get (proxmoxClient p) (content_path node storage) = Ok raw ->
  Unmarshal_items raw = Ok items ->
  (storageHasISO Unmarshal_items p node storage isoName = Ok true <->
   exists it, it ∈ items /\
     ((exists v, it !! "volid" = Some (Str v) /\
                 (v = isoName \/ exists pre, v = pre +:+ isoName)) \/
      it !! "name" = Some (Str isoName))) /\
  (forall it rest,
     range_contents (it :: rest) isoName =
     if volid_matches it isoName then true
     else if name_matches it isoName then true
     else range_contents rest isoName).
Proof.
  intros Hget Hdec. rewrite (storageHasISO_decoded _ _ _ _ _ Hget Hdec).
  split; [|done].
  transitivity (range_contents items isoName = true).
  { split; congruence. }
  rewrite range_contents_true, Exists_exists.
  split; intros (it & Hin & Hm); exists it; (split; [done|]).
  - destruct Hm as [Hm%volid_matches_spec|Hm%name_matches_spec]; auto.
  - destruct Hm as [Hm%volid_matches_spec|Hm%name_matches_spec]; auto.
Qed.

(** C7: on a decoded content listing, empty or not, in which no record
    matches the file name under either rule, storageHasISO returns false
    and no error; and whenever storageHasISO does return an error, it is
    the client's error unchanged or the decode error wrapped. *)
Theorem storageHasISO_absent_is_false node storage isoName :
  (forall raw items,
     Get (proxmoxClient p) (content_path node storage) = Ok raw ->
     Unmarshal_items raw = Ok items ->
     Forall (fun it =>
               (forall v, it !! "volid" = Some (Str v) ->
                          v <> isoName /\ ~ exists pre, v = pre +:+ isoName) /\
               it !! "name" <> Some (Str isoName)) items ->
     storageHasISO Unmarshal_items p node storage isoName = Ok false) /\
  (forall e,
     storageHasISO Unmarshal_items p node storage isoName = Err e ->
     Get (proxmoxClient p) (content_path node storage) = Err e \/
     exists raw cause,
       Get (proxmoxClient p) (content_path node storage) = Ok raw /\
       Unmarshal_items raw = Err cause /\
       e = fmt.Errorf_w "failed to parse storage content: " cause).
Proof.
  split.
  - intros raw items Hget Hdec Hnone.
    rewrite (storageHasISO_decoded _ _ _ _ _ Hget Hdec). f_equal.
    apply range_contents_false. eapply Forall_impl; [exact Hnone|].
    intros it [Hvol Hname]. split.
    + destruct (volid_matches it isoName) eqn:E; [|done].
      apply volid_matches_spec in E as (v & Hv & Hm).
      destruct (Hvol v Hv) as [Hne Hsuf]. by destruct Hm.
    + destruct (name_matches it isoName) eqn:E; [|done].
      by apply name_matches_spec in E.
  - intros e. unfold storageHasISO.
    destruct (Get _ _) as [raw|err]; [|intros [= ->]; by left].
    destruct (Unmarshal_items raw) as [items|cause] eqn:Hdec; [done|].
    intros [= <-]. right. by exists raw, cause.
Qed.

(** C9: with the empty file name, storageHasISO returns true on every
    decoded content listing that has a record with a string volid, because
    every string ends with the empty string. *)
Theorem storageHasISO_empty_name node storage raw items :
  Get (proxmoxClient p) (content_path node storage) = Ok raw ->
  Unmarshal_items raw = Ok items ->
  (exists it v, it ∈ items /\ it !! "volid" = Some (Str v)) ->
  storageHasISO Unmarshal_items p node storage "" = Ok true.
Proof.
  intros Hget Hdec (it & v & Hin & Hv).
  rewrite (storageHasISO_decoded _ _ _ _ _ Hget Hdec). f_equal.
  apply range_contents_true, Exists_exists. exists it. split; [done|].
  left. unfold volid_matches.
  apply field_string in Hv. rewrite Hv. by rewrite HasSuffix_empty.
Qed.

End StorageHasISO.

Section StorageHasISORuns.
Import Go provider Fixtures.

(** A concrete record with no match: its fields are read off by
    computation. *)
Local Ltac no_match_for_file :=
  split;
  [ intros v Hv; vm_compute in Hv; injection Hv as <-;
    split; [discriminate | apply HasSuffix_false; vm_compute; reflexivity]
  | vm_compute; discriminate ].

Lemma storageHasISO_true_iff_run :
  storageHasISO (decoding_to [debian_volume; ubuntu_volume]) (serving [])
                "pve" "local" "ubuntu.iso" = Ok true.
Proof.
  apply (storageHasISO_true_iff
           (decoding_to [debian_volume; ubuntu_volume]) (serving [])
           "pve" "local" "ubuntu.iso" [] [debian_volume; ubuntu_volume]
           eq_refl eq_refl).
  exists ubuntu_volume. split.
  - apply elem_of_cons. right. apply elem_of_cons. by left.
  - left. exists "local:iso/ubuntu.iso". split; [vm_compute; reflexivity|].
    right. by exists "local:iso/".
Defined.

Lemma storageHasISO_absent_is_false_run :
  storageHasISO (decoding_to [debian_volume; ubuntu_volume]) (serving [])
                "pve" "local" "fedora.iso" = Ok false.
Proof.
  apply (proj1 (storageHasISO_absent_is_false
                  (decoding_to [debian_volume; ubuntu_volume]) (serving [])
                  "pve" "local" "fedora.iso")
               [] [debian_volume; ubuntu_volume] eq_refl eq_refl).
  repeat (constructor; [no_match_for_file|]). constructor.
Defined.

Lemma storageHasISO_empty_name_run :
  storageHasISO (decoding_to [debian_volume]) (serving []) "pve" "local" ""
  = Ok true.
Proof.
  apply (storageHasISO_empty_name
           (decoding_to [debian_volume]) (serving []) "pve" "local" []
           [debian_volume] eq_refl eq_refl).
  exists debian_volume, "local:iso/debian.iso". split.
  - apply elem_of_cons. by left.
  - vm_compute. reflexivity.
Defined.

End StorageHasISORuns.

(** ** startStorageDownload *)

Section StartStorageDownload.
Import Go provider.

Variable Unmarshal_map : RawMessage -> result (gmap string any).
Variable Sprint_v : gmap string any -> string.
Variable p : Provisioner.

Local Abbreviation download_path node storage :=
  ("/nodes/" +:+ node +:+ "/storage/" +:+ storage +:+ "/download").

(** The request carries exactly the three parameters of lines 87-91. *)
Lemma download_params_lookup (isoName sourceURL k : string) :
  download_params isoName sourceURL !! k =
  if decide (k = "content") then Some "iso"
  else if decide (k = "filename") then Some isoName
  else if decide (k = "url") then Some sourceURL
  else None.
Proof.
  unfold download_params.
  repeat (rewrite lookup_insert; case_decide; subst;
          [repeat case_decide; congruence|]).
  rewrite lookup_empty. repeat case_decide; congruence.
Qed.

Lemma startStorageDownload_decoded node storage isoName sourceURL resp wrapper :
  Post (proxmoxClient p) (download_path node storage)
       (download_params isoName sourceURL) = Ok resp ->
  Unmarshal_map resp = Ok wrapper ->
  startStorageDownload Unmarshal_map Sprint_v p node storage isoName sourceURL =
  match extract_upid wrapper with
  | Some upid => Ok upid
  | None =>
      Err (mkError ("unexpected download response: " +:+ Sprint_v wrapper) None)
  end.
Proof. unfold startStorageDownload. by intros -> ->. Qed.

(** The wrapper has no task identifier in exactly the three shapes that the
    type switch lets through. *)
Lemma extract_upid_None (wrapper : gmap string any) :
  extract_upid wrapper = None <->
  wrapper !! "data" = None \/
  (exists d, wrapper !! "data" = Some d /\
             (forall s, d <> Str s) /\ (forall m, d <> Map m)) \/
  (exists m, wrapper !! "data" = Some (Map m) /\
             forall s, m !! "upid" <> Some (Str s)).
Proof.
  unfold extract_upid. destruct (wrapper !! "data") as [d|]; [|tauto].
  split.
  - intros Hnone. right.
    destruct d as [ |b|f|s|l|m]; try discriminate;
      try (left; eexists; split; [reflexivity|]; split; congruence).
    right. exists m. split; [done|]. by apply field_not_string.
  - intros [?|[(d' & [= <-] & Hs & Hm)|(m & [= ->] & Hno)]]; [done| |].
    + destruct d as [ |b|f|s|l|m]; try done.
      * by destruct (Hs s).
      * by destruct (Hm m).
    + by apply field_not_string.
Qed.

(** C3: on a decoded download response, startStorageDownload returns the
    data field itself when it is a string, and the upid field of data when
    data is a record whose upid is a string. *)
Theorem startStorageDownload_returns_upid
        node storage isoName sourceURL resp wrapper :
  Post (proxmoxClient p) (download_path node storage)
       (download_params isoName sourceURL) = Ok resp ->
  Unmarshal_map resp = Ok wrapper ->
  (forall v, wrapper !! "data" = Some (Str v) ->
     startStorageDownload Unmarshal_map Sprint_v p
                          node storage isoName sourceURL = Ok v) /\
  (forall m upid,
     wrapper !! "data" = Some (Map m) -> m !! "upid" = Some (Str upid) ->
     startStorageDownload Unmarshal_map Sprint_v p
                          node storage isoName sourceURL = Ok upid).
Proof.
  intros Hpost Hdec.
  rewrite (startStorageDownload_decoded _ _ _ _ _ _ Hpost Hdec).
  unfold extract_upid. split.
  - by intros v ->.
  - intros m upid -> Hupid%field_string. by rewrite Hupid.
Qed.

(** C5: on a decoded download response whose data field is absent, or is
    neither a string nor a record, or is a record without a string upid,
    startStorageDownload returns no identifier but an error whose message
    is "unexpected download response: " followed by the payload as [%v]
    prints it. *)
Theorem startStorageDownload_unexpected
        node storage isoName sourceURL resp wrapper :
  Post (proxmoxClient p) (download_path node storage)
       (download_params isoName sourceURL) = Ok resp ->
  Unmarshal_map resp = Ok wrapper ->
  wrapper !! "data" = None \/
  (exists d, wrapper !! "data" = Some d /\
             (forall s, d <> Str s) /\ (forall m, d <> Map m)) \/
  (exists m, wrapper !! "data" = Some (Map m) /\
             forall s, m !! "upid" <> Some (Str s)) ->
  exists e,
    startStorageDownload Unmarshal_map Sprint_v p
                         node storage isoName sourceURL = Err e /\
    Error e = "unexpected download response: " +:+ Sprint_v wrapper /\
    Unwrap e = None /\
    forall upid,
      startStorageDownload Unmarshal_map Sprint_v p
                           node storage isoName sourceURL <> Ok upid.
Proof.
  intros Hpost Hdec Hshape%extract_upid_None.
  rewrite (startStorageDownload_decoded _ _ _ _ _ _ Hpost Hdec), Hshape.
  eexists. repeat split. discriminate.
Qed.

End StartStorageDownload.

Section StartStorageDownloadRuns.
Import Go provider Fixtures.

Lemma startStorageDownload_returns_upid_run :
  startStorageDownload (decoding_to upid_plain) show_keys (serving [])
    "pve" "local" "ubuntu.iso" "https://releases.example/ubuntu.iso"
  = Ok "UPID:pve:0001:" /\
  startStorageDownload (decoding_to upid_nested) show_keys (serving [])
    "pve" "local" "ubuntu.iso" "https://releases.example/ubuntu.iso"
  = Ok "UPID:pve:0002:".
Proof.
  split.
  - apply (proj1 (startStorageDownload_returns_upid
                    (decoding_to upid_plain) show_keys (serving [])
                    "pve" "local" "ubuntu.iso"
                    "https://releases.example/ubuntu.iso" [] upid_plain
                    eq_refl eq_refl)).
    vm_compute. reflexivity.
  - apply (proj2 (startStorageDownload_returns_upid
                    (decoding_to upid_nested) show_keys (serving [])
                    "pve" "local" "ubuntu.iso"
                    "https://releases.example/ubuntu.iso" [] upid_nested
                    eq_refl eq_refl)
                 {[ "upid" := Str "UPID:pve:0002:" ]}).
    + vm_compute. reflexivity.
    + vm_compute. reflexivity.
Defined.

Lemma startStorageDownload_unexpected_run :
  exists e,
    startStorageDownload (decoding_to data_array) show_keys (serving [])
      "pve" "local" "ubuntu.iso" "https://releases.example/ubuntu.iso" = Err e /\
    Error e = "unexpected download response: " +:+ show_keys data_array /\
    Unwrap e = None /\
    forall upid,
      startStorageDownload (decoding_to data_array) show_keys (serving [])
        "pve" "local" "ubuntu.iso" "https://releases.example/ubuntu.iso"
      <> Ok upid.
Proof.
  apply (startStorageDownload_unexpected
           (decoding_to data_array) show_keys (serving [])
           "pve" "local" "ubuntu.iso" "https://releases.example/ubuntu.iso"
           [] data_array eq_refl eq_refl).
  right. left. exists (Slice [Float64 1%float]).
  split; [vm_compute; reflexivity|]. split; discriminate.
Defined.

End StartStorageDownloadRuns.

(** ** Decode failures *)

Section DecodeFailures.
Import Go provider.

Variable Unmarshal_items : RawMessage -> result (list (gmap string any)).
Variable Unmarshal_map : RawMessage -> result (gmap string any).
Variable Sprint_v : gmap string any -> string.
Variable p : Provisioner.

(** What [%w] promises: the message is the prefix followed by the cause's
    message, and the cause is what [Unwrap] returns. *)
Lemma Errorf_w_wraps (prefix : string) (cause : error) :
  Error (fmt.Errorf_w prefix cause) = prefix +:+ Error cause /\
  Unwrap (fmt.Errorf_w prefix cause) = Some cause.
Proof. by split. Qed.

(** C8: in each of the three helpers, when the client call succeeds and
    [json.Unmarshal] rejects the body with [cause], the helper fails with an
    error whose message is a description of the step followed by the
    message of [cause], and whose [Unwrap] is [cause] itself. *)
Theorem decode_failure_wraps_cause (cause : error) :
  (forall node raw,
     Get (proxmoxClient p) ("/nodes/" +:+ node +:+ "/storage") = Ok raw ->
     Unmarshal_items raw = Err cause ->
     exists e,
       findISOStorageName Unmarshal_items p node = Err e /\
       Error e = "failed to parse storage list: " +:+ Error cause /\
       Unwrap e = Some cause) /\
  (forall node storage isoName raw,
     Get (proxmoxClient p)
         ("/nodes/" +:+ node +:+ "/storage/" +:+ storage +:+ "/content")
       = Ok raw ->
     Unmarshal_items raw = Err cause ->
     exists e,
       storageHasISO Unmarshal_items p node storage isoName = Err e /\
       Error e = "failed to parse storage content: " +:+ Error cause /\
       Unwrap e = Some cause) /\
  (forall node storage isoName sourceURL resp,
     Post (proxmoxClient p)
          ("/nodes/" +:+ node +:+ "/storage/" +:+ storage +:+ "/download")
          (download_params isoName sourceURL) = Ok resp ->
     Unmarshal_map resp = Err cause ->
     exists e,
       startStorageDownload Unmarshal_map Sprint_v p
                            node storage isoName sourceURL = Err e /\
       Error e = "failed to parse download response: " +:+ Error cause /\
       Unwrap e = Some cause).
Proof.
  split; [|split].
  - intros node raw Hget Hdec. unfold findISOStorageName.
    rewrite Hget, Hdec. eexists. split; [reflexivity|]. apply Errorf_w_wraps.
  - intros node storage isoName raw Hget Hdec. unfold storageHasISO.
    rewrite Hget, Hdec. eexists. split; [reflexivity|]. apply Errorf_w_wraps.
  - intros node storage isoName sourceURL resp Hpost Hdec.
    unfold startStorageDownload.
    rewrite Hpost, Hdec. eexists. split; [reflexivity|]. apply Errorf_w_wraps.
Qed.

End DecodeFailures.

Section DecodeFailuresRuns.
Import Go provider Fixtures.

Lemma decode_failure_wraps_cause_run :
  (exists e,
     findISOStorageName (rejecting syntax_error) (serving []) "pve" = Err e /\
     Error e = "failed to parse storage list: " +:+ Error syntax_error /\
     Unwrap e = Some syntax_error) /\
  (exists e,
     storageHasISO (rejecting syntax_error) (serving [])
                   "pve" "local" "ubuntu.iso" = Err e /\
     Error e = "failed to parse storage content: " +:+ Error syntax_error /\
     Unwrap e = Some syntax_error) /\
  (exists e,
     startStorageDownload (rejecting syntax_error) show_keys (serving [])
       "pve" "local" "ubuntu.iso" "https://releases.example/ubuntu.iso"
       = Err e /\
     Error e = "failed to parse download response: " +:+ Error syntax_error /\
     Unwrap e = Some syntax_error).
Proof.
  pose proof (decode_failure_wraps_cause
                (rejecting syntax_error) (rejecting syntax_error) show_keys
                (serving []) syntax_error) as (Hfind & Hhas & Hstart).
  split; [|split].
  - exact (Hfind "pve" [] eq_refl eq_refl).
  - exact (Hhas "pve" "local" "ubuntu.iso" [] eq_refl eq_refl).
  - exact (Hstart "pve" "local" "ubuntu.iso"
                  "https://releases.example/ubuntu.iso" [] eq_refl eq_refl).
Defined.

End DecodeFailuresRuns.

(** ** More on findISOStorageName: what a result tells the caller *)

Section FindISOStorageNameResults.
Import Go provider.

Variable Unmarshal_items : RawMessage -> result (list (gmap string any)).
Variable p : Provisioner.

Local Abbreviation storage_path node := ("/nodes/" +:+ node +:+ "/storage").

Lemma range_items_app (l1 l2 : list (gmap string any)) :
  range_items (l1 ++ l2) =
  match range_items l1 with
  | Some name => Some name
  | None => range_items l2
  end.
Proof.
  induction l1 as [|item l1 IH]; [done|].
  rewrite <- app_comm_cons, !range_items_step, IH.
  by destruct (negb (String.eqb (storage_name item) "") && content_has_iso item).
Qed.

(** A name that leaves the loop belongs to a record of the listing, and all
    records before that one were passed over. *)
Lemma range_items_Some (items : list (gmap string any)) (name : string) :
  range_items items = Some name ->
  exists pre it post,
    items = pre ++ it :: post /\
    Forall (fun item => storage_name item = "" \/ content_has_iso item = false)
           pre /\
    storage_name it = name /\ name <> "" /\ content_has_iso it = true.
Proof.
  induction items as [|item items IH]; [discriminate|].
  rewrite range_items_step.
  destruct (String.eqb_spec (storage_name item) "") as [Hname|Hname]; simpl.
  - intros (pre & it & post & -> & Hpre & Hit)%IH.
    exists (item :: pre), it, post. split; [done|]. split; [|done].
    constructor; [by left | done].
  - destruct (content_has_iso item) eqn:Hiso.
    + intros [= <-]. exists [], item, items. repeat split; done.
    + intros (pre & it & post & -> & Hpre & Hit)%IH.
      exists (item :: pre), it, post. split; [done|]. split; [|done].
      constructor; [by right | done].
Qed.

(** X1: whatever the client and the decoder do, a name returned by
    findISOStorageName is never the empty string. *)
Theorem findISOStorageName_name_nonempty (node name : string) :
  findISOStorageName Unmarshal_items p node = Ok name -> name <> "".
Proof.
  unfold findISOStorageName.
  destruct (Get _ _) as [raw|err]; [|discriminate].
  destruct (Unmarshal_items raw) as [items|err]; [|discriminate].
  destruct (range_items items) as [name'|] eqn:Hloop; [|discriminate].
  intros [= <-]. by apply range_items_Some in Hloop as (? & ? & ? & _ & _ & _ & ? & _).
Qed.

(** X2: when findISOStorageName returns a name on a decoded listing, the
    listing splits as [pre ++ it :: post] where the name is the candidate
    name of [it], the content of [it] is an array holding the string "iso",
    and every record of [pre] has an empty candidate name or no "iso" in a
    content array. *)
Theorem findISOStorageName_sound node raw items name :
  Get (proxmoxClient p) (storage_path node) = Ok raw ->
  Unmarshal_items raw = Ok items ->
  findISOStorageName Unmarshal_items p node = Ok name ->
  exists pre it post,
    items = pre ++ it :: post /\
    storage_name it = name /\
    (exists elems, it !! "content" = Some (Slice elems) /\ Str "iso" ∈ elems) /\
    Forall (fun item =>
              storage_name item = "" \/
              ~ exists elems,
                  item !! "content" = Some (Slice elems) /\ Str "iso" ∈ elems)
           pre.
Proof.
  intros Hget Hdec. rewrite (findISOStorageName_decoded _ _ _ _ _ Hget Hdec).
  destruct (range_items items) as [name'|] eqn:Hloop; [|discriminate].
  intros [= <-].
  apply range_items_Some in Hloop
    as (pre & it & post & -> & Hpre & Hit & _ & Hiso%content_has_iso_spec).
  exists pre, it, post. repeat split; try done.
  eapply Forall_impl; [exact Hpre|]. intros item [?|Hno]; [by left|right].
  intros Hex%content_has_iso_spec. congruence.
Qed.

(** X3: an error of findISOStorageName is of one of three kinds: the
    client's error, returned as it is; the decoder's error, wrapped under
    "failed to parse storage list: "; or the not-found error naming the
    node, which occurs only when the body decoded and no record of the
    listing both has a name and holds "iso". *)
Theorem findISOStorageName_error_kinds (node : string) (e : error) :
  findISOStorageName Unmarshal_items p node = Err e ->
  Get (proxmoxClient p) (storage_path node) = Err e \/
  (exists raw cause,
     Get (proxmoxClient p) (storage_path node) = Ok raw /\
     Unmarshal_items raw = Err cause /\
     e = fmt.Errorf_w "failed to parse storage list: " cause) \/
  (exists raw items,
     Get (proxmoxClient p) (storage_path node) = Ok raw /\
     Unmarshal_items raw = Ok items /\
     Forall (fun item =>
               storage_name item = "" \/
               ~ exists elems,
                   item !! "content" = Some (Slice elems) /\ Str "iso" ∈ elems)
            items /\
     e = fmt.Errorf_s "no ISO-capable storage found on node " node).
Proof.
  unfold findISOStorageName.
  destruct (Get _ _) as [raw|err]; [|intros [= ->]; by left].
  destruct (Unmarshal_items raw) as [items|cause] eqn:Hdec.
  - destruct (range_items items) as [name|] eqn:Hloop; [discriminate|].
    intros [= <-]. right; right. exists raw, items. repeat split; try done.
    apply range_items_None in Hloop.
    eapply Forall_impl; [exact Hloop|]. intros item [?|Hno]; [by left|right].
    intros Hex%content_has_iso_spec. congruence.
  - intros [= <-]. right; left. by exists raw, cause.
Qed.

(** X4: on a decoded listing, findISOStorageName is a search for the first
    record with a non-empty candidate name and "iso" in its content: it
    returns the candidate name of the head of the listing filtered by that
    condition, and the not-found error when the filtered listing is
    empty. *)
Theorem findISOStorageName_head_filter node raw items :
  Get (proxmoxClient p) (storage_path node) = Ok raw ->
  Unmarshal_items raw = Ok items ->
  findISOStorageName Unmarshal_items p node =
  match head (filter (fun item => storage_name item <> "" /\
                                  content_has_iso item = true) items) with
  | Some it => Ok (storage_name it)
  | None => Err (fmt.Errorf_s "no ISO-capable storage found on node " node)
  end.
Proof.
  intros Hget Hdec. rewrite (findISOStorageName_decoded _ _ _ _ _ Hget Hdec).
  assert (range_items items =
          storage_name <$>
            head (filter (fun item => storage_name item <> "" /\
                                      content_has_iso item = true) items))
    as ->.
  { clear Hdec. induction items as [|item items IH]; [done|].
    rewrite range_items_step, filter_cons. case_decide as Hq.
    - destruct Hq as [Hname%String.eqb_neq ->]. by rewrite Hname.
    - rewrite IH.
      destruct (String.eqb_spec (storage_name item) "") as [|Hname]; [done|].
      destruct (content_has_iso item) eqn:Hiso; [|done].
      by destruct Hq. }
  by destruct (head _).
Qed.

(** X5: the candidate name and the content scan read only the fields
    "storage", "name" and "content": two listings whose records agree on
    these three fields, one by one, leave the loop with the same result,
    whatever other fields the records carry. *)
Theorem range_items_other_fields_ignored (items items' : list (gmap string any)) :
  Forall2 (fun a b : gmap string any =>
             a !! "storage" = b !! "storage" /\
             a !! "name" = b !! "name" /\
             a !! "content" = b !! "content") items items' ->
  range_items items = range_items items'.
Proof.
  induction 1 as [|a b items items' (Hs & Hn & Hc) _ IH]; [done|].
  rewrite !range_items_step, IH.
  unfold storage_name, content_has_iso, index. by rewrite Hs, Hn, Hc.
Qed.

(** X14: a name found on a listing is still the answer when more records
    follow: if findISOStorageName returns a name on a response decoded to
    [items], it returns the same name on a response decoded to
    [items ++ more]. *)
Theorem findISOStorageName_stable_under_append
        (p' : Provisioner) node raw raw' (items more : list (gmap string any))
        (name : string) :
  Get (proxmoxClient p) (storage_path node) = Ok raw ->
  Unmarshal_items raw = Ok items ->
  Get (proxmoxClient p') (storage_path node) = Ok raw' ->
  Unmarshal_items raw' = Ok (items ++ more) ->
  findISOStorageName Unmarshal_items p node = Ok name ->
  findISOStorageName Unmarshal_items p' node = Ok name.
Proof.
  intros Hget Hdec Hget' Hdec'.
  rewrite (findISOStorageName_decoded _ _ _ _ _ Hget Hdec).
  rewrite (findISOStorageName_decoded _ _ _ _ _ Hget' Hdec').
  rewrite range_items_app.
  by destruct (range_items items).
Qed.

End FindISOStorageNameResults.

(** ** More on storageHasISO: what the answer depends on *)

Section StorageHasISOResults.
Import Go provider.

Variable Unmarshal_items : RawMessage -> result (list (gmap string any)).

Local Abbreviation content_path node storage :=
  ("/nodes/" +:+ node +:+ "/storage/" +:+ storage +:+ "/content").

(** X6: in the volid rule of line 70 the equality test never decides: a
    volid matches exactly when [strings.HasSuffix] accepts it, because every
    string is a suffix of itself. *)
Theorem volid_rule_is_suffix_test (it : gmap string any) (isoName : string) :
  volid_matches it isoName =
  match assert_string (index it "volid") with
  | Some v => strings.HasSuffix v isoName
  | None => false
  end.
Proof.
  unfold volid_matches. destruct (assert_string (index it "volid")) as [v|]; [|done].
  destruct (String.eqb_spec v isoName) as [->|_].
  - by rewrite HasSuffix_refl.
  - apply orb_false_r.
Qed.

(** X7: records can only add to the answer.  When storageHasISO answers
    true on a listing, it answers true on every listing that contains all
    records of the first, in whatever order and with whatever else. *)
Theorem storageHasISO_more_records
        (p1 p2 : Provisioner) node storage isoName raw1 raw2
        (items1 items2 : list (gmap string any)) :
  Get (proxmoxClient p1) (content_path node storage) = Ok raw1 ->
  Unmarshal_items raw1 = Ok items1 ->
  Get (proxmoxClient p2) (content_path node storage) = Ok raw2 ->
  Unmarshal_items raw2 = Ok items2 ->
  items1 ⊆ items2 ->
  storageHasISO Unmarshal_items p1 node storage isoName = Ok true ->
  storageHasISO Unmarshal_items p2 node storage isoName = Ok true.
Proof.
  intros Hget1 Hdec1 Hget2 Hdec2 Hsub.
  rewrite (storageHasISO_decoded _ _ _ _ _ _ _ Hget1 Hdec1).
  rewrite (storageHasISO_decoded _ _ _ _ _ _ _ Hget2 Hdec2).
  intros [= Htrue]. f_equal.
  apply range_contents_true, Exists_exists in Htrue as (it & Hin & Hm).
  apply range_contents_true, Exists_exists. exists it. split; [|done].
  by apply Hsub.
Qed.

(** X8: the answer of storageHasISO does not depend on the order of the
    listing: two responses that decode to permutations of one another get
    the same answer. *)
Theorem storageHasISO_order_irrelevant
        (p1 p2 : Provisioner) node storage isoName raw1 raw2
        (items1 items2 : list (gmap string any)) :
  Get (proxmoxClient p1) (content_path node storage) = Ok raw1 ->
  Unmarshal_items raw1 = Ok items1 ->
  Get (proxmoxClient p2) (content_path node storage) = Ok raw2 ->
  Unmarshal_items raw2 = Ok items2 ->
  items1 ≡ₚ items2 ->
  storageHasISO Unmarshal_items p1 node storage isoName =
  storageHasISO Unmarshal_items p2 node storage isoName.
Proof.
  intros Hget1 Hdec1 Hget2 Hdec2 Hperm.
  rewrite (storageHasISO_decoded _ _ _ _ _ _ _ Hget1 Hdec1).
  rewrite (storageHasISO_decoded _ _ _ _ _ _ _ Hget2 Hdec2).
  f_equal. clear Hget1 Hdec1 Hget2 Hdec2.
  induction Hperm as [|it l l' _ IH|a b l|l l' l'' _ IH1 _ IH2].
  - done.
  - by rewrite !range_contents_step, IH.
  - rewrite !range_contents_step.
    destruct (volid_matches a isoName), (volid_matches b isoName),
             (name_matches a isoName), (name_matches b isoName); done.
  - congruence.
Qed.

(** X9: the two match rules read only the fields "volid" and "name": two
    listings whose records agree on these two fields, one by one, get the
    same answer from the loop, whatever other fields the records carry. *)
Theorem range_contents_other_fields_ignored
        (items items' : list (gmap string any)) (isoName : string) :
  Forall2 (fun a b : gmap string any =>
             a !! "volid" = b !! "volid" /\ a !! "name" = b !! "name")
          items items' ->
  range_contents items isoName = range_contents items' isoName.
Proof.
  induction 1 as [|a b items items' (Hv & Hn) _ IH]; [done|].
  rewrite !range_contents_step, IH.
  unfold volid_matches, name_matches, index. by rewrite Hv, Hn.
Qed.

End StorageHasISOResults.

(** ** More on startStorageDownload *)

Section StartStorageDownloadResults.
Import Go provider.

Variable Sprint_v : gmap string any -> string.
Variable p : Provisioner.

Local Abbreviation download_path node storage :=
  ("/nodes/" +:+ node +:+ "/storage/" +:+ storage +:+ "/download").

Lemma extract_upid_Some (wrapper : gmap string any) (upid : string) :
  extract_upid wrapper = Some upid <->
  wrapper !! "data" = Some (Str upid) \/
  exists m, wrapper !! "data" = Some (Map m) /\ m !! "upid" = Some (Str upid).
Proof.
  unfold extract_upid. destruct (wrapper !! "data") as [d|].
  - destruct d as [ |b|f|s|l|m]; simpl;
      try (split; [discriminate | intros [[=]|(? & [=] & _)]]).
    + split; [intros [= ->]; by left | intros [[= ->]|(? & [=] & _)]; done].
    + rewrite field_string. split.
      * intros Hm. right. by exists m.
      * intros [[=]|(m' & [= <-] & Hm)]. done.
  - split; [discriminate | intros [[=]|(? & [=] & _)]].
Qed.

(** X10: when startStorageDownload returns an identifier on a decoded
    response, that identifier is the string under "data", or the string
    under "upid" of the record under "data"; it comes from nowhere else. *)
Theorem startStorageDownload_sound
        (Unmarshal_map : RawMessage -> result (gmap string any))
        node storage isoName sourceURL resp wrapper upid :
  Post (proxmoxClient p) (download_path node storage)
       (download_params isoName sourceURL) = Ok resp ->
  Unmarshal_map resp = Ok wrapper ->
  startStorageDownload Unmarshal_map Sprint_v p
                       node storage isoName sourceURL = Ok upid ->
  wrapper !! "data" = Some (Str upid) \/
  exists m, wrapper !! "data" = Some (Map m) /\ m !! "upid" = Some (Str upid).
Proof.
  intros Hpost Hdec.
  rewrite (startStorageDownload_decoded _ _ _ _ _ _ _ _ _ Hpost Hdec).
  destruct (extract_upid wrapper) as [u|] eqn:Hx; [|discriminate].
  intros [= <-]. by apply extract_upid_Some.
Qed.

(** X11: an error of startStorageDownload is of one of three kinds: the
    client's error, returned as it is; the decoder's error, wrapped under
    "failed to parse download response: "; or, when the body decoded to a
    wrapper without identifier, the error that prints that wrapper. *)
Theorem startStorageDownload_error_kinds
        (Unmarshal_map : RawMessage -> result (gmap string any))
        node storage isoName sourceURL (e : error) :
  startStorageDownload Unmarshal_map Sprint_v p
                       node storage isoName sourceURL = Err e ->
  Post (proxmoxClient p) (download_path node storage)
       (download_params isoName sourceURL) = Err e \/
  (exists resp cause,
     Post (proxmoxClient p) (download_path node storage)
          (download_params isoName sourceURL) = Ok resp /\
     Unmarshal_map resp = Err cause /\
     e = fmt.Errorf_w "failed to parse download response: " cause) \/
  (exists resp wrapper,
     Post (proxmoxClient p) (download_path node storage)
          (download_params isoName sourceURL) = Ok resp /\
     Unmarshal_map resp = Ok wrapper /\
     (forall upid, wrapper !! "data" <> Some (Str upid)) /\
     (forall m upid, wrapper !! "data" = Some (Map m) ->
                     m !! "upid" <> Some (Str upid)) /\
     e = mkError ("unexpected download response: " +:+ Sprint_v wrapper) None).
Proof.
  unfold startStorageDownload.
  destruct (Post _ _ _) as [resp|err]; [|intros [= ->]; by left].
  destruct (Unmarshal_map resp) as [wrapper|cause] eqn:Hdec.
  - destruct (extract_upid wrapper) as [u|] eqn:Hx; [discriminate|].
    intros [= <-]. right; right. exists resp, wrapper.
    split; [done|]. split; [done|]. split; [|split; [|done]].
    + intros upid Hd.
      assert (extract_upid wrapper = Some upid) by (apply extract_upid_Some; by left).
      congruence.
    + intros m upid Hd Hu.
      assert (extract_upid wrapper = Some upid)
        by (apply extract_upid_Some; right; by exists m).
      congruence.
  - intros [= <-]. right; left. by exists resp, cause.
Qed.

(** X12: only the "data" field of the response takes part in finding the
    identifier: when one body is decoded to two wrappers that agree on
    "data", startStorageDownload returns an identifier for the one exactly
    when it returns the same identifier for the other. *)
Theorem startStorageDownload_reads_data_only
        (Unmarshal1 Unmarshal2 : RawMessage -> result (gmap string any))
        node storage isoName sourceURL resp wrapper1 wrapper2 upid :
  Post (proxmoxClient p) (download_path node storage)
       (download_params isoName sourceURL) = Ok resp ->
  Unmarshal1 resp = Ok wrapper1 ->
  Unmarshal2 resp = Ok wrapper2 ->
  wrapper1 !! "data" = wrapper2 !! "data" ->
  startStorageDownload Unmarshal1 Sprint_v p
                       node storage isoName sourceURL = Ok upid <->
  startStorageDownload Unmarshal2 Sprint_v p
                       node storage isoName sourceURL = Ok upid.
Proof.
  intros Hpost Hdec1 Hdec2 Hdata.
  rewrite (startStorageDownload_decoded _ _ _ _ _ _ _ _ _ Hpost Hdec1).
  rewrite (startStorageDownload_decoded _ _ _ _ _ _ _ _ _ Hpost Hdec2).
  unfold extract_upid. rewrite Hdata.
  by destruct (wrapper2 !! "data") as [[ | | |s| |m]|];
    try destruct (assert_string (index m "upid")).
Qed.

End StartStorageDownloadResults.

(** ** Runs of the further properties *)

Section ResultsRuns.
Import Go provider Fixtures.

Lemma findISOStorageName_name_nonempty_run : "local" <> "".
Proof.
  apply (findISOStorageName_name_nonempty
           (decoding_to [unnamed_iso; local_iso]) (serving []) "pve" "local").
  vm_compute. reflexivity.
Defined.

Lemma findISOStorageName_sound_run :
  exists pre it post,
    [unnamed_iso; local_iso] = pre ++ it :: post /\
    storage_name it = "local" /\
    (exists elems, it !! "content" = Some (Slice elems) /\ Str "iso" ∈ elems) /\
    Forall (fun item =>
              storage_name item = "" \/
              ~ exists elems,
                  item !! "content" = Some (Slice elems) /\ Str "iso" ∈ elems)
           pre.
Proof.
  apply (findISOStorageName_sound
           (decoding_to [unnamed_iso; local_iso]) (serving []) "pve" []
           [unnamed_iso; local_iso] "local" eq_refl eq_refl).
  vm_compute. reflexivity.
Defined.

Lemma findISOStorageName_error_kinds_run :
  Get (proxmoxClient (serving [])) "/nodes/pve/storage"
    = Err (fmt.Errorf_s "no ISO-capable storage found on node " "pve") \/
  (exists raw cause,
     Get (proxmoxClient (serving [])) "/nodes/pve/storage" = Ok raw /\
     decoding_to [unnamed_iso; lvm_images] raw = Err cause /\
     fmt.Errorf_s "no ISO-capable storage found on node " "pve"
       = fmt.Errorf_w "failed to parse storage list: " cause) \/
  (exists raw items,
     Get (proxmoxClient (serving [])) "/nodes/pve/storage" = Ok raw /\
     decoding_to [unnamed_iso; lvm_images] raw = Ok items /\
     Forall (fun item =>
               storage_name item = "" \/
               ~ exists elems,
                   item !! "content" = Some (Slice elems) /\ Str "iso" ∈ elems)
            items /\
     fmt.Errorf_s "no ISO-capable storage found on node " "pve"
       = fmt.Errorf_s "no ISO-capable storage found on node " "pve").
Proof.
  apply (findISOStorageName_error_kinds
           (decoding_to [unnamed_iso; lvm_images]) (serving []) "pve").
  vm_compute. reflexivity.
Defined.

Lemma findISOStorageName_head_filter_run :
  findISOStorageName (decoding_to [lvm_images; nfs_mixed; local_iso])
                     (serving []) "pve" = Ok "nfs".
Proof.
  rewrite (findISOStorageName_head_filter
             (decoding_to [lvm_images; nfs_mixed; local_iso]) (serving [])
             "pve" [] [lvm_images; nfs_mixed; local_iso] eq_refl eq_refl).
  vm_compute. reflexivity.
Defined.

Lemma range_items_other_fields_ignored_run :
  range_items [lvm_images; local_iso_typed] = range_items [lvm_images; local_iso].
Proof.
  apply range_items_other_fields_ignored.
  repeat constructor; vm_compute; reflexivity.
Defined.

Lemma findISOStorageName_stable_under_append_run :
  findISOStorageName
    (decoding_either [unnamed_iso; local_iso] [unnamed_iso; local_iso; nfs_mixed])
    (serving [Byte.x00]) "pve" = Ok "local".
Proof.
  apply (findISOStorageName_stable_under_append
           (decoding_either [unnamed_iso; local_iso]
                            [unnamed_iso; local_iso; nfs_mixed])
           (serving []) (serving [Byte.x00]) "pve" [] [Byte.x00]
           [unnamed_iso; local_iso] [nfs_mixed] "local"
           eq_refl eq_refl eq_refl eq_refl).
  vm_compute. reflexivity.
Defined.

Lemma storageHasISO_more_records_run :
  storageHasISO (decoding_either [ubuntu_volume] [debian_volume; ubuntu_volume])
                (serving [Byte.x00]) "pve" "local" "ubuntu.iso" = Ok true.
Proof.
  apply (storageHasISO_more_records
           (decoding_either [ubuntu_volume] [debian_volume; ubuntu_volume])
           (serving []) (serving [Byte.x00]) "pve" "local" "ubuntu.iso"
           [] [Byte.x00] [ubuntu_volume] [debian_volume; ubuntu_volume]
           eq_refl eq_refl eq_refl eq_refl).
  - intros it Hin. apply elem_of_cons. right. exact Hin.
  - vm_compute. reflexivity.
Defined.

Lemma storageHasISO_order_irrelevant_run :
  storageHasISO
    (decoding_either [debian_volume; ubuntu_volume] [ubuntu_volume; debian_volume])
    (serving []) "pve" "local" "debian.iso" =
  storageHasISO
    (decoding_either [debian_volume; ubuntu_volume] [ubuntu_volume; debian_volume])
    (serving [Byte.x00]) "pve" "local" "debian.iso".
Proof.
  apply (storageHasISO_order_irrelevant
           (decoding_either [debian_volume; ubuntu_volume]
                            [ubuntu_volume; debian_volume])
           (serving []) (serving [Byte.x00]) "pve" "local" "debian.iso"
           [] [Byte.x00] [debian_volume; ubuntu_volume]
           [ubuntu_volume; debian_volume]
           eq_refl eq_refl eq_refl eq_refl).
  apply perm_swap.
Defined.

Lemma range_contents_other_fields_ignored_run :
  range_contents [debian_volume; ubuntu_volume_sized] "ubuntu.iso" =
  range_contents [debian_volume; ubuntu_volume] "ubuntu.iso".
Proof.
  apply range_contents_other_fields_ignored.
  repeat constructor; vm_compute; reflexivity.
Defined.

Lemma startStorageDownload_sound_run :
  upid_nested !! "data" = Some (Str "UPID:pve:0002:") \/
  exists m, upid_nested !! "data" = Some (Map m) /\
            m !! "upid" = Some (Str "UPID:pve:0002:").
Proof.
  apply (startStorageDownload_sound
           show_keys (serving []) (decoding_to upid_nested)
           "pve" "local" "ubuntu.iso" "https://releases.example/ubuntu.iso"
           [] upid_nested "UPID:pve:0002:" eq_refl eq_refl).
  vm_compute. reflexivity.
Defined.

Lemma startStorageDownload_error_kinds_run :
  exists resp wrapper,
    Post (proxmoxClient (serving [])) "/nodes/pve/storage/local/download"
         (download_params "ubuntu.iso" "https://releases.example/ubuntu.iso")
      = Ok resp /\
    decoding_to data_array resp = Ok wrapper /\
    (forall upid, wrapper !! "data" <> Some (Str upid)) /\
    (forall m upid, wrapper !! "data" = Some (Map m) ->
                    m !! "upid" <> Some (Str upid)).
Proof.
  destruct (startStorageDownload_error_kinds
              show_keys (serving []) (decoding_to data_array)
              "pve" "local" "ubuntu.iso" "https://releases.example/ubuntu.iso"
              (mkError ("unexpected download response: "
                        +:+ show_keys data_array) None))
    as [Hpost|[(resp & cause & _ & Hdec & _)|(resp & wrapper & H)]].
  - vm_compute. reflexivity.
  - discriminate Hpost.
  - discriminate Hdec.
  - exists resp, wrapper. tauto.
Defined.

Lemma startStorageDownload_reads_data_only_run :
  startStorageDownload (decoding_to upid_plain) show_keys (serving [])
    "pve" "local" "ubuntu.iso" "https://releases.example/ubuntu.iso"
    = Ok "UPID:pve:0001:" <->
  startStorageDownload (decoding_to upid_plain_verbose) show_keys (serving [])
    "pve" "local" "ubuntu.iso" "https://releases.example/ubuntu.iso"
    = Ok "UPID:pve:0001:".
Proof.
  apply (startStorageDownload_reads_data_only
           show_keys (serving [])
           (decoding_to upid_plain) (decoding_to upid_plain_verbose)
           "pve" "local" "ubuntu.iso" "https://releases.example/ubuntu.iso"
           [] upid_plain upid_plain_verbose "UPID:pve:0001:"
           eq_refl eq_refl eq_refl).
  vm_compute. reflexivity.
Defined.

End ResultsRuns.

(** ** The content scan within the loop *)

Section ContentScan.
Import Go provider.

Variable Unmarshal_items : RawMessage -> result (list (gmap string any)).
Variable p p' : Provisioner.

Local Abbreviation storage_path node := ("/nodes/" +:+ node +:+ "/storage").

(** Dropping a record that the loop passes over leaves the loop's result
    as it is, wherever the record stands. *)
Lemma range_items_drop (pre post : list (gmap string any)) item :
  storage_name item = "" \/ content_has_iso item = false ->
  range_items (pre ++ item :: post) = range_items (pre ++ post).
Proof.
  intros Hpass. rewrite !range_items_app. by rewrite range_items_pass.
Qed.

(** C10 (as amended): whatever the content field of a record is (absent,
    not an array, or an array with elements that are not strings), the
    record never makes findISOStorageName fail, and it qualifies exactly
    when it has a non-empty candidate name and some element of its content
    array is the string "iso".  With such a name and element, and the
    records before it passed over, findISOStorageName returns the record's
    name; without, the record is stepped over, and the result is the one
    of the listing without the record. *)
Theorem record_qualifies_iff_named_iso node raw raw' pre item post :
  Get (proxmoxClient p) (storage_path node) = Ok raw ->
  Unmarshal_items raw = Ok (pre ++ item :: post) ->
  Get (proxmoxClient p') (storage_path node) = Ok raw' ->
  Unmarshal_items raw' = Ok (pre ++ post) ->
  (Forall (fun it => storage_name it = "" \/
                     ~ exists elems,
                         it !! "content" = Some (Slice elems) /\
                         Str "iso" ∈ elems) pre ->
   storage_name item <> "" /\
   (exists elems,
      item !! "content" = Some (Slice elems) /\ Str "iso" ∈ elems) ->
   findISOStorageName Unmarshal_items p node = Ok (storage_name item)) /\
  (~ (storage_name item <> "" /\
      exists elems,
        item !! "content" = Some (Slice elems) /\ Str "iso" ∈ elems) ->
   findISOStorageName Unmarshal_items p node =
   findISOStorageName Unmarshal_items p' node).
Proof.
  intros Hget Hdec Hget' Hdec'.
  rewrite (findISOStorageName_decoded _ _ _ _ _ Hget Hdec).
  rewrite (findISOStorageName_decoded _ _ _ _ _ Hget' Hdec').
  split.
  - intros Hpre [Hname Hiso%content_has_iso_spec].
    rewrite range_items_prefix.
    + by rewrite range_items_hit.
    + eapply Forall_impl; [exact Hpre|]. apply passed_over_fields.
  - intros Hnot. rewrite range_items_drop; [done|].
    apply passed_over_fields.
    destruct (String.eqb_spec (storage_name item) "") as [Hname|Hname];
      [by left|right].
    intros Hex. by apply Hnot.
Qed.

End ContentScan.

Section ContentScanRuns.
Import Go provider Fixtures.

Lemma record_qualifies_iff_named_iso_run :
  findISOStorageName
    (decoding_either [lvm_images; nfs_mixed; local_iso] [lvm_images; local_iso])
    (serving []) "pve" = Ok "nfs" /\
  findISOStorageName
    (decoding_either [lvm_images; unnamed_mixed; local_iso]
                     [lvm_images; local_iso])
    (serving []) "pve" =
  findISOStorageName
    (decoding_either [lvm_images; unnamed_mixed; local_iso]
                     [lvm_images; local_iso])
    (serving [Byte.x00]) "pve".
Proof.
  split.
  - apply (proj1 (record_qualifies_iff_named_iso
                    (decoding_either [lvm_images; nfs_mixed; local_iso]
                                     [lvm_images; local_iso])
                    (serving []) (serving [Byte.x00]) "pve" [] [Byte.x00]
                    [lvm_images] nfs_mixed [local_iso]
                    eq_refl eq_refl eq_refl eq_refl)).
    + constructor; [right; apply lvm_images_without_iso | constructor].
    + split; [vm_compute; discriminate|].
      exists [Float64 1%float; Nil; Str "iso"].
      split; [vm_compute; reflexivity|].
      do 2 (apply elem_of_cons; right). apply elem_of_cons. by left.
  - apply (proj2 (record_qualifies_iff_named_iso
                    (decoding_either [lvm_images; unnamed_mixed; local_iso]
                                     [lvm_images; local_iso])
                    (serving []) (serving [Byte.x00]) "pve" [] [Byte.x00]
                    [lvm_images] unnamed_mixed [local_iso]
                    eq_refl eq_refl eq_refl eq_refl)).
    intros [Hname _]. apply Hname. vm_compute. reflexivity.
Defined.

(** C10, as stated, fails: the content of the record is an array with a
    number and the string "iso", yet the record does not qualify, because it
    has no name; the loop steps over it. *)
Lemma content_scan_unnamed_record_not_qualifying :
  unnamed_mixed !! "content" = Some (Slice [Float64 1%float; Str "iso"]) /\
  content_has_iso unnamed_mixed = true /\
  storage_name unnamed_mixed = "" /\
  findISOStorageName (decoding_to [unnamed_mixed]) (serving []) "pve"
    = Err (fmt.Errorf_s "no ISO-capable storage found on node " "pve") /\
  findISOStorageName (decoding_to [unnamed_mixed; local_iso]) (serving []) "pve"
    = Ok "local".
Proof. repeat split; vm_compute; reflexivity. Qed.

End ContentScanRuns.
